(** * Telegram API Message Sender (src/app.py): a shallow embedding

    The Flask relay of [src/app.py]: [send_telegram_request] (the forwarder)
    and the three handlers [send_message], [send_photo], [send_document].
    Exceptions are explicit results, the outbound calls are recorded in a
    trace (writer-style state passing). *)

From Stdlib Require Import String List ZArith Bool Lia.
Import ListNotations.
Open Scope string_scope.
Set Warnings "-register-all".

(** ** Data *)

(** JSON values as Python's [json] module yields them. Numbers are
    restricted to integers; objects are Python dicts, kept as association
    lists in insertion order (the parser leaves one entry per key). *)
Inductive json : Type :=
| JNull
| JBool (b : bool)
| JNum (z : Z)
| JStr (s : string)
| JArr (l : list json)
| JObj (kvs : list (string * json)).

(** Python truthiness, used by [if not data] and [if not bot_token]. *)
Definition truthy (v : json) : bool :=
  match v with
  | JNull => false
  | JBool b => b
  | JNum z => negb (Z.eqb z 0)
  | JStr s => negb (String.eqb s "")
  | JArr l => match l with [] => false | _ => true end
  | JObj kvs => match kvs with [] => false | _ => true end
  end.

(** Dict key lookup, [k in d] on a dict. *)
Fixpoint dict_get (k : string) (kvs : list (string * json)) : option json :=
  match kvs with
  | [] => None
  | (k', v) :: r => if String.eqb k' k then Some v else dict_get k r
  end.

Definition dict_has (k : string) (kvs : list (string * json)) : bool :=
  match dict_get k kvs with Some _ => true | None => false end.

(** The dict left after removing key [k]. *)
Definition dict_remove (k : string) (kvs : list (string * json))
  : list (string * json) :=
  filter (fun p => negb (String.eqb (fst p) k)) kvs.

(** Substring test, [k in s] on a str. *)
Fixpoint str_prefix (p s : string) : bool :=
  match p, s with
  | EmptyString, _ => true
  | String a p', String b s' => Ascii.eqb a b && str_prefix p' s'
  | String _ _, EmptyString => false
  end.

Fixpoint str_contains (p s : string) : bool :=
  str_prefix p s ||
  match s with
  | EmptyString => false
  | String _ s' => str_contains p s'
  end.

(** Python [k in data] for a str [k]: [None] is the [TypeError] raised when
    [data] is not a container (int, bool, None). *)
Definition py_contains (k : string) (data : json) : option bool :=
  match data with
  | JObj kvs => Some (dict_has k kvs)
  | JArr l => Some (existsb (fun x => match x with
                                      | JStr s => String.eqb s k
                                      | _ => false end) l)
  | JStr s => Some (str_contains k s)
  | JNull | JBool _ | JNum _ => None
  end.

(** Python [data.pop(k, default)]: only a dict has a two-argument [pop];
    [None] is the [AttributeError] / [TypeError] raised on anything else. *)
Definition py_pop (k : string) (default : json) (data : json)
  : option (json * json) :=
  match data with
  | JObj kvs =>
      Some (match dict_get k kvs with Some v => v | None => default end,
            JObj (dict_remove k kvs))
  | _ => None
  end.

(** [str(n)] for an int: its decimal digits. *)
Fixpoint uint_to_string (d : Decimal.uint) : string :=
  match d with
  | Decimal.Nil => ""
  | Decimal.D0 r => "0" ++ uint_to_string r
  | Decimal.D1 r => "1" ++ uint_to_string r
  | Decimal.D2 r => "2" ++ uint_to_string r
  | Decimal.D3 r => "3" ++ uint_to_string r
  | Decimal.D4 r => "4" ++ uint_to_string r
  | Decimal.D5 r => "5" ++ uint_to_string r
  | Decimal.D6 r => "6" ++ uint_to_string r
  | Decimal.D7 r => "7" ++ uint_to_string r
  | Decimal.D8 r => "8" ++ uint_to_string r
  | Decimal.D9 r => "9" ++ uint_to_string r
  end.

Definition z_to_string (z : Z) : string :=
  match Z.to_int z with
  | Decimal.Pos d => uint_to_string d
  | Decimal.Neg d => "-" ++ uint_to_string d
  end.

(** ** Responses and effects *)

(** What a handler hands back to Flask: [jsonify(...)] with a status, or an
    [HTTPException] raised by Flask itself (by [request.json] before the
    handler's own checks ran, or by url matching), which Werkzeug renders
    with its default page, as [app.py] registers no handler for it. *)
Inductive response : Type :=
| JsonResponse (status : Z) (body : json)
| FrameworkAbort (status : Z).

(** The [{"error": ...}] envelope. *)
Definition error_body (msg : string) : json := JObj [("error", JStr msg)].

(** An exception no handler catches: Flask turns it into a 500 and calls
    [server_error], the [@app.errorhandler(500)]. *)
Definition internal_server_error : response :=
  JsonResponse 500 (error_body "Internal server error").

(** The outcome of Flask's [request.json]: the decoded value ([None] is
    [JNull]), or the [HTTPException] it raises (400 on a body that is not
    valid JSON; 415 on a non-JSON content type from Flask 2.1 on). *)
Inductive request_json : Type :=
| RJValue (v : json)
| RJAbort (status : Z).

(** One [requests.post(url, json=params, timeout=10)]; the url is
    [f"https://api.telegram.org/bot{token}/{method}"], a function of
    [ob_token] and [ob_method]. *)
Record outbound : Type := {
  ob_method : string;
  ob_token : json;
  ob_params : json;
  ob_timeout : Z
}.

(** What [requests.post] does: raise a [RequestException] carrying no
    response (connection error, timeout, ...), with [str(e)] = [reason];
    raise one that carries a response, with its status code and [.text]
    ([TooManyRedirects] on a redirect chain it gives up, with the last 3xx
    response attached); or return the final response with its status code
    and [.text]. *)
Inductive post_outcome : Type :=
| PostRaised (reason : string)
| PostRaisedResponse (status : Z) (text : string)
| PostResponse (status : Z) (text : string).

(** What [response.json()] does: return the decoded value; raise
    [requests.exceptions.JSONDecodeError] (a [RequestException] with no
    response attached, requests >= 2.27) on text that is not JSON; or let
    through another exception of [json.loads], not a [RequestException]
    ([RecursionError] on very deep nesting, [ValueError] on an integer of
    more than 4300 digits). The string is [str(e)]. *)
Inductive decode_result : Type :=
| Decoded (v : json)
| DecodeError (msg : string)
| DecodeRaised (msg : string).

(** How a call of [send_telegram_request] ends: it returns [v]; it raises
    [Exception(msg)] from its [except] clause; or an exception with
    [str(e)] = [msg] passes through it uncaught. *)
Inductive fwd_result : Type :=
| FwdOk (v : json)
| FwdError (msg : string)
| FwdEscaped (msg : string).

(** The trace: calls of the forwarder and network posts. *)
Inductive event : Type :=
| EvForward (method : string) (token params : json)
| EvPost (c : outbound).

(** [response.raise_for_status()] raises [HTTPError] exactly for
    [400 <= status < 600]. *)
Definition raise_for_status (status : Z) : bool :=
  (400 <=? status)%Z && (status <? 600)%Z.

(** [DEFAULT_BOT_TOKEN = os.getenv('TELEGRAM_BOT_TOKEN')]: [None] or a str. *)
Definition default_value (d : option string) : json :=
  match d with None => JNull | Some s => JStr s end.

Inductive operation : Type := SendMessage | SendPhoto | SendDocument.

Definition op_method (op : operation) : string :=
  match op with
  | SendMessage => "sendMessage"
  | SendPhoto => "sendPhoto"
  | SendDocument => "sendDocument"
  end.

(** The second required field; [chat_id] is checked first in all three. *)
Definition op_field (op : operation) : string :=
  match op with
  | SendMessage => "text"
  | SendPhoto => "photo"
  | SendDocument => "document"
  end.

Definition no_token_msg : string :=
  "No bot token provided and TELEGRAM_BOT_TOKEN environment variable not set".

Definition is_post (e : event) : bool :=
  match e with EvPost _ => true | EvForward _ _ _ => false end.

Definition posts (tr : list event) : nat := length (filter is_post tr).

Section Relay.

(** The provider as seen through [requests.post]. *)
Variable net : outbound -> post_outcome.

(** [response.json()] on the response text. *)
Variable json_loads : string -> decode_result.

(** [send_telegram_request(method, token, params)]. *)
Definition send_telegram_request (method : string) (token params : json)
  : list event * fwd_result :=
  let c := {| ob_method := method; ob_token := token;
              ob_params := params; ob_timeout := 10 |} in
  ([EvPost c],
   match net c with
   | PostRaised reason =>
       FwdError ("Request to Telegram API failed: " ++ reason)
   | PostRaisedResponse status text =>
       FwdError ("Telegram API error (" ++ z_to_string status ++ "): " ++ text)
   | PostResponse status text =>
       if raise_for_status status
       then FwdError ("Telegram API error (" ++ z_to_string status ++ "): " ++ text)
       else match json_loads text with
            | Decoded v => FwdOk v
            | DecodeError err => FwdError ("Request to Telegram API failed: " ++ err)
            | DecodeRaised msg => FwdEscaped msg
            end
   end).

(** The body shared by [send_message], [send_photo] and [send_document]. *)
Definition send_handler (op : operation) (default_bot_token : option string)
    (rj : request_json) : list event * response :=
  match rj with
  | RJAbort st => ([], FrameworkAbort st)
  | RJValue data =>
    if negb (truthy data)
    then ([], JsonResponse 400 (error_body "No data provided"))
    else
    match py_contains "chat_id" data with
    | None => ([], internal_server_error)
    | Some false =>
        ([], JsonResponse 400 (error_body "Missing required field: chat_id"))
    | Some true =>
      match py_contains (op_field op) data with
      | None => ([], internal_server_error)
      | Some false =>
          ([], JsonResponse 400
                 (error_body ("Missing required field: " ++ op_field op)))
      | Some true =>
        match py_pop "bot_token" (default_value default_bot_token) data with
        | None => ([], internal_server_error)
        | Some (bot_token, params) =>
          if negb (truthy bot_token)
          then ([], JsonResponse 400 (error_body no_token_msg))
          else
            let (tr, r) := send_telegram_request (op_method op) bot_token params in
            (EvForward (op_method op) bot_token params :: tr,
             match r with
             | FwdError msg => JsonResponse 500 (error_body msg)
             | FwdEscaped msg => JsonResponse 500 (error_body msg)
             | FwdOk v => JsonResponse 200 v
             end)
        end
      end
    end
  end.

Definition send_message := send_handler SendMessage.
Definition send_photo := send_handler SendPhoto.
Definition send_document := send_handler SendDocument.

End Relay.

(** ** Routing: [@app.route] and [@app.errorhandler] *)

(** [health_check]: [jsonify({"status": "ok"})]. *)
Definition health_check : response := JsonResponse 200 (JObj [("status", JStr "ok")]).

(** [not_found], the [@app.errorhandler(404)]. *)
Definition not_found : response := JsonResponse 404 (error_body "Endpoint not found").

(** [server_error], the [@app.errorhandler(500)]; the same response an
    uncaught exception gets. *)
Definition server_error : response := internal_server_error.

Inductive route : Type := RHealth | RSend (op : operation).

(** The result of Werkzeug's [MapAdapter.match] for a request against the
    rules of [app.py] ([/health] with [methods=['GET']] for [health_check];
    [/api/telegram/sendMessage], [/sendPhoto], [/sendDocument] with
    [methods=['POST']] for the three send views). Werkzeug normalises the
    path and upper-cases the method itself; what it decides is one of: an
    endpoint to run, Flask's automatic OPTIONS answer, [NotFound],
    [MethodNotAllowed], or a [RequestRedirect] (e.g. 308 to the
    merged-slash form of the path). *)
Inductive url_match : Type :=
| UMEndpoint (r : route)
| UMOptions (allow : list string)
| UMNotFound
| UMMethodNotAllowed
| UMRedirect (status : Z).

(** What the application returns for one request: a view's or error
    handler's response with the calls made, or Flask's automatic answer to
    OPTIONS listing the allowed methods. *)
Inductive app_reply : Type :=
| Routed (tr : list event) (r : response)
| OptionsReply (allow : list string).

Section Routing.

Variable net : outbound -> post_outcome.
Variable json_loads : string -> decode_result.

(** Flask's dispatch for [app] once the url is matched: the endpoint's view
    runs; [NotFound] is rendered by [not_found]; [MethodNotAllowed] and
    [RequestRedirect] have no handler in [app.py] and get Werkzeug's own
    response. *)
Definition app_dispatch (default_bot_token : option string) (m : url_match)
    (rj : request_json) : app_reply :=
  match m with
  | UMEndpoint RHealth => Routed [] health_check
  | UMEndpoint (RSend op) =>
      let (tr, resp) := send_handler net json_loads op default_bot_token rj in
      Routed tr resp
  | UMOptions allow => OptionsReply allow
  | UMNotFound => Routed [] not_found
  | UMMethodNotAllowed => Routed [] (FrameworkAbort 405)
  | UMRedirect st => Routed [] (FrameworkAbort st)
  end.

End Routing.

(** A provider response body decoder for concrete runs: agrees with
    [json.loads] on the texts it accepts. *)
Definition sample_loads (t : string) : decode_result :=
  if String.eqb t "{}" then Decoded (JObj [])
  else if String.eqb t "true" then Decoded (JBool true)
  else DecodeError "Expecting value: line 1 column 1 (char 0)".

(** ** [jsonify]'s bytes *)

(** Characters built from their codes: the double quote, the backslash and
    the newline. *)
Definition dq : string := String (Ascii.ascii_of_nat 34) EmptyString.
Definition bs : string := String (Ascii.ascii_of_nat 92) EmptyString.
Definition nl : string := String (Ascii.ascii_of_nat 10) EmptyString.

Definition hex_digit (n : nat) : string :=
  String (Ascii.ascii_of_nat (if Nat.ltb n 10 then 48 + n else 87 + n)) EmptyString.

(** One character as [json.dumps] writes it with [ensure_ascii=True]
    ([py_encode_basestring_ascii]); a byte stands for the code point of the
    same value. *)
Definition esc_char (c : Ascii.ascii) : string :=
  let n := Ascii.nat_of_ascii c in
  if Nat.eqb n 34 then bs ++ dq
  else if Nat.eqb n 92 then bs ++ bs
  else if Nat.eqb n 10 then bs ++ "n"
  else if Nat.eqb n 13 then bs ++ "r"
  else if Nat.eqb n 9 then bs ++ "t"
  else if Nat.eqb n 8 then bs ++ "b"
  else if Nat.eqb n 12 then bs ++ "f"
  else if Nat.leb 32 n && Nat.leb n 126 then String c EmptyString
  else bs ++ "u00" ++ hex_digit (Nat.div n 16) ++ hex_digit (Nat.modulo n 16).

Fixpoint esc (s : string) : string :=
  match s with
  | EmptyString => ""
  | String c r => esc_char c ++ esc r
  end.

Definition encode_str (s : string) : string := dq ++ esc s ++ dq.

Fixpoint join (sep : string) (l : list string) : string :=
  match l with
  | [] => ""
  | [x] => x
  | x :: r => x ++ sep ++ join sep r
  end.

(** [sort_keys=True]: a stable insertion of the items by key, in code
    point order. *)
Fixpoint insert_item (p : string * string) (l : list (string * string))
  : list (string * string) :=
  match l with
  | [] => [p]
  | q :: r =>
      match String.compare (fst p) (fst q) with
      | Lt => p :: l
      | _ => q :: insert_item p r
      end
  end.

Definition sort_items (l : list (string * string)) : list (string * string) :=
  fold_left (fun acc p => insert_item p acc) l [].

(** [json.dumps(v, sort_keys=True, separators=(",", ":"))]. *)
Fixpoint dumps (v : json) : string :=
  match v with
  | JNull => "null"
  | JBool true => "true"
  | JBool false => "false"
  | JNum z => z_to_string z
  | JStr s => encode_str s
  | JArr l => "[" ++ join "," (map dumps l) ++ "]"
  | JObj kvs =>
      "{" ++ join ","
        (map (fun p => encode_str (fst p) ++ ":" ++ snd p)
           (sort_items (map (fun p => (fst p, dumps (snd p))) kvs))) ++ "}"
  end.

(** The body [jsonify(v)] sends outside debug mode: Flask's
    [DefaultJSONProvider.response] dumps with sorted keys and compact
    separators and appends a newline. *)
Definition jsonify_bytes (v : json) : string := dumps v ++ nl.

(** The body bytes of a JSON reply (an [HTTPException] page is not
    modelled byte by byte). *)
Definition response_bytes (r : response) : option string :=
  match r with
  | JsonResponse _ b => Some (jsonify_bytes b)
  | FrameworkAbort _ => None
  end.

(** [s] in double quotes. *)
Definition quoted (s : string) : string := dq ++ s ++ dq.

(** A provider body with unsorted keys and spaces after separators:
    [{"result": {"b": 1, "a": 2}, "ok": true}]. *)
Definition unsorted_text : string :=
  "{" ++ quoted "result" ++ ": {" ++ quoted "b" ++ ": 1, " ++ quoted "a" ++
  ": 2}, " ++ quoted "ok" ++ ": true}".

Definition unsorted_value : json :=
  JObj [("result", JObj [("b", JNum 1); ("a", JNum 2)]); ("ok", JBool true)].

(** A text of 100000 opening brackets, on which [json.loads] raises
    [RecursionError]. *)
Definition deep_nesting : string :=
  Pos.iter (fun s => String (Ascii.ascii_of_nat 91) s) EmptyString 100000%positive.

Definition recursion_msg : string :=
  "maximum recursion depth exceeded while decoding a JSON array from a unicode string".

(** A decoder that also knows the two texts above. *)
Definition wide_loads (t : string) : decode_result :=
  if String.eqb t unsorted_text then Decoded unsorted_value
  else if String.eqb t deep_nesting then DecodeRaised recursion_msg
  else sample_loads t.

(** The value [data.pop('bot_token', DEFAULT_BOT_TOKEN)] yields on a dict. *)
Definition resolved_token (dflt : option string) (kvs : list (string * json))
  : json :=
  match dict_get "bot_token" kvs with
  | Some v => v
  | None => default_value dflt
  end.

(** The outbound call made for a dispatched request. *)
Definition dispatch_call (op : operation) (tok params : json) : outbound :=
  {| ob_method := op_method op; ob_token := tok;
     ob_params := params; ob_timeout := 10 |}.

(** Request bodies for concrete runs. *)
Definition body_msg : list (string * json) :=
  [("chat_id", JNum 42); ("text", JStr "hi")].

Definition body_tok (tok : json) : list (string * json) :=
  [("chat_id", JNum 42); ("text", JStr "hi"); ("bot_token", tok)].

Example z_to_string_400 : z_to_string 400 = "400".
Proof. reflexivity. Qed.

Example send_message_no_data :
  send_message (fun _ => PostRaised "x") sample_loads None (RJValue (JObj []))
  = ([], JsonResponse 400 (error_body "No data provided")).
Proof. reflexivity. Qed.

Example send_photo_missing_photo :
  send_photo (fun _ => PostRaised "x") sample_loads (Some "T")
    (RJValue (JObj [("chat_id", JNum 1)]))
  = ([], JsonResponse 400 (error_body "Missing required field: photo")).
Proof. reflexivity. Qed.

Example send_message_string_body :
  send_message (fun _ => PostRaised "x") sample_loads (Some "T")
    (RJValue (JStr "chat_id text"))
  = ([], internal_server_error).
Proof. reflexivity. Qed.

(** ** General facts *)

Lemma dict_get_remove_same (k : string) (kvs : list (string * json)) :
  dict_get k (dict_remove k kvs) = None.
Proof.
  induction kvs as [|[k' v] r IH]; simpl; [reflexivity|].
  destruct (String.eqb k' k) eqn:E; simpl; [exact IH|].
  rewrite E. exact IH.
Qed.

Lemma dict_get_remove_other (k k' : string) (kvs : list (string * json)) :
  k' <> k -> dict_get k' (dict_remove k kvs) = dict_get k' kvs.
Proof.
  intros Hne. induction kvs as [|[k0 v] r IH]; simpl; [reflexivity|].
  destruct (String.eqb k0 k) eqn:E; simpl.
  - apply String.eqb_eq in E; subst k0.
    destruct (String.eqb k k') eqn:E2; [|exact IH].
    apply String.eqb_eq in E2. congruence.
  - rewrite IH. reflexivity.
Qed.

Lemma dict_has_nonempty (k : string) (kvs : list (string * json)) :
  dict_has k kvs = true -> truthy (JObj kvs) = true.
Proof. destruct kvs; [discriminate|reflexivity]. Qed.

Section Handlers.

Variable net : outbound -> post_outcome.
Variable json_loads : string -> decode_result.

(** A dict body with both required fields and a truthy credential reaches
    the forwarder, with [bot_token] popped from the parameters. *)
Lemma send_handler_dispatch (op : operation) (dflt : option string)
    (kvs : list (string * json)) :
  dict_has "chat_id" kvs = true ->
  dict_has (op_field op) kvs = true ->
  truthy (resolved_token dflt kvs) = true ->
  send_handler net json_loads op dflt (RJValue (JObj kvs)) =
  (EvForward (op_method op) (resolved_token dflt kvs)
      (JObj (dict_remove "bot_token" kvs))
   :: fst (send_telegram_request net json_loads (op_method op)
             (resolved_token dflt kvs) (JObj (dict_remove "bot_token" kvs))),
   match snd (send_telegram_request net json_loads (op_method op)
             (resolved_token dflt kvs) (JObj (dict_remove "bot_token" kvs))) with
   | FwdError msg => JsonResponse 500 (error_body msg)
   | FwdEscaped msg => JsonResponse 500 (error_body msg)
   | FwdOk v => JsonResponse 200 v
   end).
Proof.
  intros Hc Hf Ht.
  unfold send_handler. rewrite (dict_has_nonempty _ _ Hc). simpl.
  rewrite Hc, Hf. unfold resolved_token in Ht. simpl.
  rewrite Ht. simpl. reflexivity.
Qed.

(** Every run of a handler makes at most one network post. *)
Lemma send_handler_posts_le_1 (op : operation) (dflt : option string)
    (rj : request_json) :
  (posts (fst (send_handler net json_loads op dflt rj)) <= 1)%nat.
Proof.
  unfold send_handler, posts.
  destruct rj as [data|st]; simpl; [|lia].
  destruct (truthy data); simpl; [|lia].
  destruct (py_contains "chat_id" data) as [[|]|]; simpl; try lia.
  destruct (py_contains (op_field op) data) as [[|]|]; simpl; try lia.
  destruct (py_pop "bot_token" (default_value dflt) data) as [[tok params]|];
    simpl; [|lia].
  destruct (truthy tok); simpl; [|lia].
  reflexivity.
Qed.

End Handlers.

(** ** Claims *)

Section Claims.

Variable net : outbound -> post_outcome.
Variable json_loads : string -> decode_result.

(** C1 (as amended): when the final response has a status in 400..599 and
    body text [B], or [requests.post] raises an exception carrying a
    response with that status and body ([TooManyRedirects]), the handler
    responds 500 with [{"error": "Telegram API error (<status>): <B>"}]. *)
Theorem C1_http_error_message (op : operation) (dflt : option string)
    (kvs : list (string * json)) (status : Z) (B : string) :
  dict_has "chat_id" kvs = true ->
  dict_has (op_field op) kvs = true ->
  truthy (resolved_token dflt kvs) = true ->
  net (dispatch_call op (resolved_token dflt kvs)
         (JObj (dict_remove "bot_token" kvs))) = PostResponse status B /\
    (400 <= status < 600)%Z \/
  net (dispatch_call op (resolved_token dflt kvs)
         (JObj (dict_remove "bot_token" kvs))) = PostRaisedResponse status B ->
  snd (send_handler net json_loads op dflt (RJValue (JObj kvs))) =
  JsonResponse 500
    (error_body ("Telegram API error (" ++ z_to_string status ++ "): " ++ B)).
Proof.
  intros Hc Hf Ht Hn.
  rewrite (send_handler_dispatch net json_loads op dflt kvs Hc Hf Ht). simpl.
  unfold dispatch_call in Hn. destruct Hn as [[Hn Hs]|Hn]; rewrite Hn;
    [|reflexivity].
  assert (E : raise_for_status status = true).
  { unfold raise_for_status. apply andb_true_intro; split;
      [apply Z.leb_le | apply Z.ltb_lt]; lia. }
  rewrite E. reflexivity.
Qed.

(** C2 (as amended): a success status whose body is not JSON
    ([JSONDecodeError]) gives the forwarder's no-status error and a 500
    carrying it; another exception raised while decoding passes through the
    forwarder and the handler answers 500 with its bare message. *)
Theorem C2_undecodable_success_body (op : operation) (dflt : option string)
    (kvs : list (string * json)) (status : Z) (B err : string) :
  dict_has "chat_id" kvs = true ->
  dict_has (op_field op) kvs = true ->
  truthy (resolved_token dflt kvs) = true ->
  net (dispatch_call op (resolved_token dflt kvs)
         (JObj (dict_remove "bot_token" kvs))) = PostResponse status B ->
  (200 <= status < 300)%Z ->
  (json_loads B = DecodeError err ->
   snd (send_telegram_request net json_loads (op_method op)
          (resolved_token dflt kvs) (JObj (dict_remove "bot_token" kvs)))
     = FwdError ("Request to Telegram API failed: " ++ err) /\
   snd (send_handler net json_loads op dflt (RJValue (JObj kvs))) =
   JsonResponse 500 (error_body ("Request to Telegram API failed: " ++ err))) /\
  (json_loads B = DecodeRaised err ->
   snd (send_telegram_request net json_loads (op_method op)
          (resolved_token dflt kvs) (JObj (dict_remove "bot_token" kvs)))
     = FwdEscaped err /\
   snd (send_handler net json_loads op dflt (RJValue (JObj kvs))) =
   JsonResponse 500 (error_body err)).
Proof.
  intros Hc Hf Ht Hn Hs.
  assert (E : raise_for_status status = false).
  { unfold raise_for_status. apply andb_false_intro1, Z.leb_gt. lia. }
  unfold dispatch_call in Hn.
  split; intros Hj.
  - assert (F : snd (send_telegram_request net json_loads (op_method op)
           (resolved_token dflt kvs) (JObj (dict_remove "bot_token" kvs)))
      = FwdError ("Request to Telegram API failed: " ++ err)).
    { simpl. rewrite Hn, E, Hj. reflexivity. }
    split; [exact F|].
    rewrite (send_handler_dispatch net json_loads op dflt kvs Hc Hf Ht), F.
    reflexivity.
  - assert (F : snd (send_telegram_request net json_loads (op_method op)
           (resolved_token dflt kvs) (JObj (dict_remove "bot_token" kvs)))
      = FwdEscaped err).
    { simpl. rewrite Hn, E, Hj. reflexivity. }
    split; [exact F|].
    rewrite (send_handler_dispatch net json_loads op dflt kvs Hc Hf Ht), F.
    reflexivity.
Qed.

(** C3 (as amended): a body with a truthy [bot_token] that passes the field
    checks calls the forwarder with that value and with the body minus
    [bot_token], every other key keeping its value. *)
Theorem C3_forward_params (op : operation) (dflt : option string)
    (kvs : list (string * json)) (tok : json) :
  dict_has "chat_id" kvs = true ->
  dict_has (op_field op) kvs = true ->
  dict_get "bot_token" kvs = Some tok ->
  truthy tok = true ->
  exists tr params,
    fst (send_handler net json_loads op dflt (RJValue (JObj kvs))) =
      EvForward (op_method op) tok (JObj params) :: tr /\
    params = dict_remove "bot_token" kvs /\
    dict_get "bot_token" params = None /\
    (forall k, k <> "bot_token" -> dict_get k params = dict_get k kvs).
Proof.
  intros Hc Hf Hg Ht.
  assert (Hr : resolved_token dflt kvs = tok).
  { unfold resolved_token. rewrite Hg. reflexivity. }
  rewrite <- Hr in Ht.
  rewrite (send_handler_dispatch net json_loads op dflt kvs Hc Hf Ht), Hr.
  eexists; exists (dict_remove "bot_token" kvs); split; [reflexivity|].
  split; [reflexivity|]. split; [apply dict_get_remove_same|].
  intros k Hk. apply dict_get_remove_other. exact Hk.
Qed.

(** C4: a non-empty dict body missing a required field gets a 400 naming
    the first missing field, [chat_id] before the operation's field, and no
    call is made. *)
Theorem C4_first_missing_field (op : operation) (dflt : option string)
    (kvs : list (string * json)) :
  kvs <> [] ->
  dict_has "chat_id" kvs = false \/ dict_has (op_field op) kvs = false ->
  send_handler net json_loads op dflt (RJValue (JObj kvs)) =
  ([], JsonResponse 400 (error_body ("Missing required field: " ++
         (if dict_has "chat_id" kvs then op_field op else "chat_id")))).
Proof.
  intros Hne Hmiss.
  assert (Htr : truthy (JObj kvs) = true) by (destruct kvs; [congruence|reflexivity]).
  unfold send_handler. rewrite Htr. simpl.
  destruct (dict_has "chat_id" kvs) eqn:Hc; [|reflexivity].
  destruct Hmiss as [H|H]; [discriminate|]. rewrite H. reflexivity.
Qed.

(** C5 (as amended): a success status whose body decodes to [R] is answered
    200 with the value [R], sent as [jsonify(R)]: [R] re-serialised with
    sorted keys and compact separators. *)
Theorem C5_success_passthrough (op : operation) (dflt : option string)
    (kvs : list (string * json)) (status : Z) (B : string) (R : json) :
  dict_has "chat_id" kvs = true ->
  dict_has (op_field op) kvs = true ->
  truthy (resolved_token dflt kvs) = true ->
  net (dispatch_call op (resolved_token dflt kvs)
         (JObj (dict_remove "bot_token" kvs))) = PostResponse status B ->
  (200 <= status < 300)%Z ->
  json_loads B = Decoded R ->
  snd (send_handler net json_loads op dflt (RJValue (JObj kvs))) =
    JsonResponse 200 R /\
  response_bytes (snd (send_handler net json_loads op dflt (RJValue (JObj kvs))))
    = Some (jsonify_bytes R).
Proof.
  intros Hc Hf Ht Hn Hs Hj.
  assert (E : raise_for_status status = false).
  { unfold raise_for_status. apply andb_false_intro1, Z.leb_gt. lia. }
  rewrite (send_handler_dispatch net json_loads op dflt kvs Hc Hf Ht). simpl.
  unfold dispatch_call in Hn. rewrite Hn, E, Hj. split; reflexivity.
Qed.


(** C7: fields present, no [bot_token] in the body and no (or an empty)
    default credential: a 400 with the fixed message, the forwarder not
    called. *)
Theorem C7_no_credential (op : operation) (dflt : option string)
    (kvs : list (string * json)) :
  dict_has "chat_id" kvs = true ->
  dict_has (op_field op) kvs = true ->
  dict_get "bot_token" kvs = None ->
  truthy (default_value dflt) = false ->
  send_handler net json_loads op dflt (RJValue (JObj kvs)) =
  ([], JsonResponse 400 (error_body no_token_msg)).
Proof.
  intros Hc Hf Hg Hd.
  unfold send_handler. rewrite (dict_has_nonempty _ _ Hc). simpl.
  rewrite Hc, Hf. simpl. rewrite Hg, Hd. reflexivity.
Qed.

(** C8: when [requests.post] raises with no response, the forwarder raises
    the no-status message built from the reason, the handler answers 500
    with it, and exactly one network post was made. *)
Theorem C8_transport_failure (op : operation) (dflt : option string)
    (kvs : list (string * json)) (reason : string) :
  dict_has "chat_id" kvs = true ->
  dict_has (op_field op) kvs = true ->
  truthy (resolved_token dflt kvs) = true ->
  net (dispatch_call op (resolved_token dflt kvs)
         (JObj (dict_remove "bot_token" kvs))) = PostRaised reason ->
  snd (send_telegram_request net json_loads (op_method op)
         (resolved_token dflt kvs) (JObj (dict_remove "bot_token" kvs)))
    = FwdError ("Request to Telegram API failed: " ++ reason) /\
  snd (send_handler net json_loads op dflt (RJValue (JObj kvs))) =
    JsonResponse 500 (error_body ("Request to Telegram API failed: " ++ reason)) /\
  posts (fst (send_handler net json_loads op dflt (RJValue (JObj kvs)))) = 1%nat.
Proof.
  intros Hc Hf Ht Hn.
  assert (F : snd (send_telegram_request net json_loads (op_method op)
         (resolved_token dflt kvs) (JObj (dict_remove "bot_token" kvs)))
    = FwdError ("Request to Telegram API failed: " ++ reason)).
  { simpl. unfold dispatch_call in Hn. rewrite Hn. reflexivity. }
  split; [exact F|].
  rewrite (send_handler_dispatch net json_loads op dflt kvs Hc Hf Ht), F.
  split; reflexivity.
Qed.

(** C9 (as amended): whatever reaches the forwarder carries a truthy
    credential (a non-empty string when it is a string) and a parameters
    dict without [bot_token]. *)
Theorem C9_dispatch_invariant (op : operation) (dflt : option string)
    (rj : request_json) (m : string) (tok params : json) :
  In (EvForward m tok params) (fst (send_handler net json_loads op dflt rj)) ->
  truthy tok = true /\
  (forall s, tok = JStr s -> s <> "") /\
  exists kvs, params = JObj kvs /\ dict_get "bot_token" kvs = None.
Proof.
  intros Hin.
  assert (Hmain : truthy tok = true /\
    exists kvs, params = JObj kvs /\ dict_get "bot_token" kvs = None).
  { unfold send_handler in Hin.
    destruct rj as [data|st]; simpl in Hin; [|contradiction].
    destruct (truthy data); simpl in Hin; [|contradiction].
    destruct (py_contains "chat_id" data) as [[|]|]; simpl in Hin;
      try contradiction.
    destruct (py_contains (op_field op) data) as [[|]|]; simpl in Hin;
      try contradiction.
    destruct data as [| | | | |kvs]; simpl in Hin; try contradiction.
    destruct (truthy (match dict_get "bot_token" kvs with
                      | Some v => v | None => default_value dflt end)) eqn:Ht;
      simpl in Hin; [|contradiction].
    destruct Hin as [Heq|Hin].
    - inversion Heq; subst. split; [exact Ht|].
      exists (dict_remove "bot_token" kvs). split; [reflexivity|].
      apply dict_get_remove_same.
    - destruct Hin as [Heq|[]]. discriminate. }
  destruct Hmain as [Ht Hp]. split; [exact Ht|]. split; [|exact Hp].
  intros s Hs Hs0. subst. discriminate.
Qed.

(** C10: a [bot_token] present in the body with a falsy value gets the
    no-credential 400 whatever the default credential is. *)
Theorem C10_falsy_body_token (op : operation) (dflt : option string)
    (kvs : list (string * json)) (tok : json) :
  dict_has "chat_id" kvs = true ->
  dict_has (op_field op) kvs = true ->
  dict_get "bot_token" kvs = Some tok ->
  truthy tok = false ->
  send_handler net json_loads op dflt (RJValue (JObj kvs)) =
  ([], JsonResponse 400 (error_body no_token_msg)).
Proof.
  intros Hc Hf Hg Ht.
  unfold send_handler. rewrite (dict_has_nonempty _ _ Hc). simpl.
  rewrite Hc, Hf. simpl. rewrite Hg, Ht. reflexivity.
Qed.

End Claims.

(** ** Concrete runs *)

Lemma C1_witness :
  snd (send_message (fun _ => PostResponse 400 "Bad Request: chat not found")
         sample_loads (Some "T") (RJValue (JObj body_msg)))
  = JsonResponse 500
      (error_body "Telegram API error (400): Bad Request: chat not found").
Proof.
  exact (C1_http_error_message
           (fun _ => PostResponse 400 "Bad Request: chat not found")
           sample_loads SendMessage (Some "T") body_msg 400
           "Bad Request: chat not found"
           eq_refl eq_refl eq_refl (or_introl (conj eq_refl (conj (Z.le_refl 400) eq_refl)))).
Defined.

(** C1 as stated fails: a 300 response is outside the 2xx range, yet it is
    not turned into an error; its JSON body is relayed with a 200. *)
Lemma C1_counterexample :
  ~ (200 <= 300 < 300)%Z /\
  snd (send_message (fun _ => PostResponse 300 "{}") sample_loads (Some "T")
         (RJValue (JObj body_msg))) = JsonResponse 200 (JObj []) /\
  snd (send_message (fun _ => PostResponse 300 "{}") sample_loads (Some "T")
         (RJValue (JObj body_msg)))
    <> JsonResponse 500 (error_body "Telegram API error (300): {}").
Proof. split; [lia|]. split; [reflexivity|discriminate]. Qed.

Lemma C2_witness :
  snd (send_photo (fun _ => PostResponse 200 "<html>") sample_loads (Some "T")
         (RJValue (JObj [("chat_id", JNum 42); ("photo", JStr "p.jpg")])))
  = JsonResponse 500 (error_body
      "Request to Telegram API failed: Expecting value: line 1 column 1 (char 0)").
Proof.
  exact (proj2 (proj1 (C2_undecodable_success_body
           (fun _ => PostResponse 200 "<html>") sample_loads SendPhoto (Some "T")
           [("chat_id", JNum 42); ("photo", JStr "p.jpg")] 200 "<html>"
           "Expecting value: line 1 column 1 (char 0)"
           eq_refl eq_refl eq_refl eq_refl ltac:(lia)) eq_refl)).
Defined.

(** C2 as stated fails: a 200 body of 100000 opening brackets makes
    [response.json()] raise [RecursionError], which is no
    [RequestException]: the forwarder produces no provider error, and the
    handler answers 500 with the bare message. *)
Lemma C2_counterexample :
  snd (send_telegram_request (fun _ => PostResponse 200 deep_nesting) wide_loads
         "sendMessage" (JStr "T") (JObj body_msg)) = FwdEscaped recursion_msg /\
  snd (send_message (fun _ => PostResponse 200 deep_nesting) wide_loads (Some "T")
         (RJValue (JObj body_msg))) = JsonResponse 500 (error_body recursion_msg).
Proof. split; vm_compute; reflexivity. Qed.

Lemma C3_witness :
  exists tr params,
    fst (send_message (fun _ => PostResponse 200 "true") sample_loads None
           (RJValue (JObj (body_tok (JStr "T1"))))) =
      EvForward "sendMessage" (JStr "T1") (JObj params) :: tr /\
    params = dict_remove "bot_token" (body_tok (JStr "T1")) /\
    dict_get "bot_token" params = None /\
    (forall k, k <> "bot_token" ->
       dict_get k params = dict_get k (body_tok (JStr "T1"))).
Proof.
  exact (C3_forward_params (fun _ => PostResponse 200 "true") sample_loads
           SendMessage None (body_tok (JStr "T1")) (JStr "T1")
           eq_refl eq_refl eq_refl eq_refl).
Defined.

(** C3 as stated fails: [bot_token] is in the body and the field checks
    pass, but its value is empty, so the forwarder is never called. *)
Lemma C3_counterexample :
  dict_has "chat_id" (body_tok (JStr "")) = true /\
  dict_has "text" (body_tok (JStr "")) = true /\
  send_message (fun _ => PostResponse 200 "true") sample_loads (Some "T")
    (RJValue (JObj (body_tok (JStr ""))))
  = ([], JsonResponse 400 (error_body no_token_msg)).
Proof. split; [reflexivity|]. split; reflexivity. Qed.

Lemma C4_witness :
  send_document (fun _ => PostRaised "x") sample_loads (Some "T")
    (RJValue (JObj [("caption", JStr "c")]))
  = ([], JsonResponse 400 (error_body "Missing required field: chat_id")).
Proof.
  exact (C4_first_missing_field (fun _ => PostRaised "x") sample_loads
           SendDocument (Some "T") [("caption", JStr "c")]
           ltac:(discriminate) (or_introl eq_refl)).
Defined.

Lemma C5_witness :
  snd (send_document (fun _ => PostResponse 200 "{}") sample_loads (Some "T")
         (RJValue (JObj [("chat_id", JNum 42); ("document", JStr "f.pdf")])))
  = JsonResponse 200 (JObj []) /\
  response_bytes (snd (send_document (fun _ => PostResponse 200 "{}") sample_loads
         (Some "T") (RJValue (JObj [("chat_id", JNum 42); ("document", JStr "f.pdf")]))))
  = Some ("{}" ++ nl).
Proof.
  exact ((C5_success_passthrough (fun _ => PostResponse 200 "{}") sample_loads
           SendDocument (Some "T")
           [("chat_id", JNum 42); ("document", JStr "f.pdf")] 200 "{}" (JObj [])
           eq_refl eq_refl eq_refl eq_refl ltac:(lia) eq_refl)).
Defined.

(** C5 as stated fails at the byte level: the provider's
    [{"result": {"b": 1, "a": 2}, "ok": true}] reaches the client as
    [{"ok":true,"result":{"a":2,"b":1}}] and a newline. *)
Lemma C5_counterexample :
  response_bytes (snd (send_message (fun _ => PostResponse 200 unsorted_text)
                         wide_loads (Some "T") (RJValue (JObj body_msg))))
  = Some ("{" ++ quoted "ok" ++ ":true," ++ quoted "result" ++ ":{" ++
          quoted "a" ++ ":2," ++ quoted "b" ++ ":1}}" ++ nl) /\
  response_bytes (snd (send_message (fun _ => PostResponse 200 unsorted_text)
                         wide_loads (Some "T") (RJValue (JObj body_msg))))
  <> Some unsorted_text.
Proof.
  split; [vm_compute; reflexivity|].
  vm_compute. intros H. discriminate H.
Qed.



Lemma C7_witness :
  send_photo (fun _ => PostResponse 200 "true") sample_loads None
    (RJValue (JObj [("chat_id", JNum 42); ("photo", JStr "p.jpg")]))
  = ([], JsonResponse 400 (error_body no_token_msg)).
Proof.
  exact (C7_no_credential (fun _ => PostResponse 200 "true") sample_loads
           SendPhoto None [("chat_id", JNum 42); ("photo", JStr "p.jpg")]
           eq_refl eq_refl eq_refl eq_refl).
Defined.

Lemma C8_witness :
  snd (send_message (fun _ => PostRaised "Read timed out.") sample_loads
         (Some "T") (RJValue (JObj body_msg)))
  = JsonResponse 500 (error_body "Request to Telegram API failed: Read timed out.") /\
  posts (fst (send_message (fun _ => PostRaised "Read timed out.") sample_loads
         (Some "T") (RJValue (JObj body_msg)))) = 1%nat.
Proof.
  exact (proj2 (C8_transport_failure (fun _ => PostRaised "Read timed out.")
           sample_loads SendMessage (Some "T") body_msg "Read timed out."
           eq_refl eq_refl eq_refl eq_refl)).
Defined.

Lemma C9_witness :
  truthy (JStr "T") = true /\
  (forall s, JStr "T" = JStr s -> s <> "") /\
  exists kvs, JObj body_msg = JObj kvs /\ dict_get "bot_token" kvs = None.
Proof.
  exact (C9_dispatch_invariant (fun _ => PostResponse 200 "true") sample_loads
           SendMessage (Some "T") (RJValue (JObj body_msg))
           "sendMessage" (JStr "T") (JObj body_msg) (or_introl eq_refl)).
Defined.

(** C9 as stated fails: a numeric [bot_token] in the body reaches the
    forwarder as it is, not as a string. *)
Lemma C9_counterexample :
  In (EvForward "sendMessage" (JNum 5) (JObj body_msg))
     (fst (send_message (fun _ => PostResponse 200 "true") sample_loads None
             (RJValue (JObj (body_tok (JNum 5)))))) /\
  ~ (exists s, JNum 5 = JStr s).
Proof.
  split; [simpl; left; reflexivity|].
  intros [s Hs]. discriminate.
Qed.

Lemma C10_witness :
  send_document (fun _ => PostResponse 200 "true") sample_loads (Some "T")
    (RJValue (JObj [("chat_id", JNum 42); ("document", JStr "f.pdf");
                    ("bot_token", JNull)]))
  = ([], JsonResponse 400 (error_body no_token_msg)).
Proof.
  exact (C10_falsy_body_token (fun _ => PostResponse 200 "true") sample_loads
           SendDocument (Some "T")
           [("chat_id", JNum 42); ("document", JStr "f.pdf"); ("bot_token", JNull)]
           JNull eq_refl eq_refl eq_refl eq_refl).
Defined.

(** ** Further properties of [app.py] *)

Section Extras.

Variable net : outbound -> post_outcome.
Variable json_loads : string -> decode_result.

(** No request, whatever url matching decides for it, makes more than one
    outbound post. *)
Theorem app_at_most_one_post (dflt : option string) (m : url_match)
    (rj : request_json) (tr : list event) (r : response) :
  app_dispatch net json_loads dflt m rj = Routed tr r ->
  (posts tr <= 1)%nat.
Proof.
  unfold app_dispatch. intros H.
  destruct m as [[|op]| | | |st];
    try (inversion H; subst; unfold posts; simpl; lia); try discriminate.
  pose proof (send_handler_posts_le_1 net json_loads op dflt rj) as Hle.
  destruct (send_handler net json_loads op dflt rj) as [tr' r'].
  inversion H; subst. exact Hle.
Qed.

(** A body that is not a JSON object never reaches the provider: it gets a
    400 (no data, or a missing field) or the 500 of an uncaught exception. *)
Theorem nondict_body_not_forwarded (op : operation) (dflt : option string)
    (data : json) :
  (forall kvs, data <> JObj kvs) ->
  fst (send_handler net json_loads op dflt (RJValue data)) = [] /\
  (snd (send_handler net json_loads op dflt (RJValue data))
     = JsonResponse 400 (error_body "No data provided") \/
   snd (send_handler net json_loads op dflt (RJValue data))
     = JsonResponse 400 (error_body "Missing required field: chat_id") \/
   snd (send_handler net json_loads op dflt (RJValue data))
     = JsonResponse 400 (error_body ("Missing required field: " ++ op_field op)) \/
   snd (send_handler net json_loads op dflt (RJValue data))
     = internal_server_error).
Proof.
  intros Hd. unfold send_handler.
  destruct (truthy data); simpl; [|auto].
  destruct data as [| | | | |kvs];
    [ | | | | | exfalso; exact (Hd kvs eq_refl)];
    simpl; auto;
    repeat match goal with
           | |- context [match ?b with true => _ | false => _ end] =>
               destruct b; simpl
           end; auto.
Qed.

(** A string or array body that passes both [in] checks reaches
    [data.pop('bot_token', ...)], which a str or list does not support:
    the request ends in the 500 "Internal server error". *)
Theorem container_body_pop_fails (op : operation) (dflt : option string)
    (data : json) :
  (exists s, data = JStr s) \/ (exists l, data = JArr l) ->
  py_contains "chat_id" data = Some true ->
  py_contains (op_field op) data = Some true ->
  send_handler net json_loads op dflt (RJValue data) = ([], internal_server_error).
Proof.
  intros Hk Hc Hf. unfold send_handler.
  assert (Ht : truthy data = true).
  { destruct Hk as [[s ->]|[l ->]]; simpl in Hc |- *.
    - destruct s; [discriminate|reflexivity].
    - destruct l; [discriminate|reflexivity]. }
  rewrite Ht, Hc, Hf. simpl.
  destruct Hk as [[s ->]|[l ->]]; reflexivity.
Qed.

(** A truthy number or [true] as the body makes ['chat_id' in data] raise
    [TypeError]: the 500 "Internal server error". *)
Theorem scalar_body_type_error (op : operation) (dflt : option string)
    (data : json) :
  (exists z, data = JNum z) \/ data = JBool true ->
  truthy data = true ->
  send_handler net json_loads op dflt (RJValue data) = ([], internal_server_error).
Proof.
  intros Hk Ht. unfold send_handler. rewrite Ht.
  destruct Hk as [[z ->]| ->]; reflexivity.
Qed.

(** When the body carries [bot_token], the default credential plays no
    part: the run is the same whatever [DEFAULT_BOT_TOKEN] is. *)
Theorem body_token_overrides_default (op : operation) (d1 d2 : option string)
    (kvs : list (string * json)) :
  dict_has "bot_token" kvs = true ->
  send_handler net json_loads op d1 (RJValue (JObj kvs)) =
  send_handler net json_loads op d2 (RJValue (JObj kvs)).
Proof.
  intros H. unfold dict_has in H. unfold send_handler. simpl.
  destruct (dict_get "bot_token" kvs); [reflexivity|discriminate].
Qed.

(** The trace of a handler run is empty, or is one forwarder call followed
    by the one post it makes: method [op_method op], the forwarded token and
    parameters, timeout 10. *)
Theorem handler_trace_shape (op : operation) (dflt : option string)
    (rj : request_json) :
  fst (send_handler net json_loads op dflt rj) = [] \/
  exists tok params,
    fst (send_handler net json_loads op dflt rj) =
      [EvForward (op_method op) tok params;
       EvPost {| ob_method := op_method op; ob_token := tok;
                 ob_params := params; ob_timeout := 10 |}].
Proof.
  unfold send_handler.
  destruct rj as [data|st]; [|left; reflexivity].
  destruct (truthy data); simpl; [|left; reflexivity].
  destruct (py_contains "chat_id" data) as [[|]|]; try (left; reflexivity).
  destruct (py_contains (op_field op) data) as [[|]|]; try (left; reflexivity).
  destruct (py_pop "bot_token" (default_value dflt) data) as [[tok params]|];
    [|left; reflexivity].
  destruct (truthy tok); simpl; [|left; reflexivity].
  right. exists tok, params. reflexivity.
Qed.

(** A 200 is only ever the relay of a provider response: the one post got
    a status outside 400..599 whose body decoded to exactly the value sent
    back. *)
Theorem ok_response_from_provider (op : operation) (dflt : option string)
    (rj : request_json) (v : json) :
  snd (send_handler net json_loads op dflt rj) = JsonResponse 200 v ->
  exists c status text,
    In (EvPost c) (fst (send_handler net json_loads op dflt rj)) /\
    net c = PostResponse status text /\
    raise_for_status status = false /\
    json_loads text = Decoded v.
Proof.
  unfold send_handler.
  destruct rj as [data|st]; [|discriminate].
  destruct (truthy data); simpl; [|discriminate].
  destruct (py_contains "chat_id" data) as [[|]|]; try discriminate.
  destruct (py_contains (op_field op) data) as [[|]|]; try discriminate.
  destruct (py_pop "bot_token" (default_value dflt) data) as [[tok params]|];
    [|discriminate].
  destruct (truthy tok); simpl; [|discriminate].
  set (c := {| ob_method := op_method op; ob_token := tok;
               ob_params := params; ob_timeout := 10 |}).
  intros H. exists c.
  destruct (net c) as [reason|status' text'|status text] eqn:Hn;
    [discriminate|discriminate|].
  exists status, text.
  destruct (raise_for_status status) eqn:Hr; [discriminate|].
  destruct (json_loads text) as [w|err|err] eqn:Hj; try discriminate.
  inversion H; subst.
  split; [right; left; reflexivity|]. auto.
Qed.

(** Every response a handler gives is a JSON reply with status 200, 400 or
    500, or the abort [request.json] itself raised. *)
Theorem handler_status_codes (op : operation) (dflt : option string)
    (rj : request_json) :
  (exists status body,
     snd (send_handler net json_loads op dflt rj) = JsonResponse status body /\
     (status = 200 \/ status = 400 \/ status = 500)%Z) \/
  (exists st, rj = RJAbort st /\
     snd (send_handler net json_loads op dflt rj) = FrameworkAbort st).
Proof.
  unfold send_handler.
  destruct rj as [data|st]; [|right; exists st; split; reflexivity].
  left.
  destruct (truthy data); simpl; [|eexists _, _; split; [reflexivity|auto]].
  destruct (py_contains "chat_id" data) as [[|]|];
    try (eexists _, _; split; [reflexivity|auto]; fail).
  destruct (py_contains (op_field op) data) as [[|]|];
    try (eexists _, _; split; [reflexivity|auto]; fail).
  destruct (py_pop "bot_token" (default_value dflt) data) as [[tok params]|];
    [|eexists _, _; split; [reflexivity|auto]].
  destruct (truthy tok); simpl; [|eexists _, _; split; [reflexivity|auto]].
  destruct (net _) as [reason|status text|status text];
    [| |destruct (raise_for_status status);
      [|destruct (json_loads text)]];
    eexists _, _; split; try reflexivity; auto.
Qed.

(** A client error (any 400 a handler sends) is decided locally: no call
    to the forwarder and no post is made. *)
Theorem client_error_no_call (op : operation) (dflt : option string)
    (rj : request_json) (body : json) :
  snd (send_handler net json_loads op dflt rj) = JsonResponse 400 body ->
  fst (send_handler net json_loads op dflt rj) = [].
Proof.
  destruct (handler_trace_shape op dflt rj) as [H|[tok [params H]]];
    [intros; exact H|].
  revert H. unfold send_handler.
  destruct rj as [data|st]; [|discriminate].
  destruct (truthy data); simpl; [|discriminate].
  destruct (py_contains "chat_id" data) as [[|]|]; try discriminate.
  destruct (py_contains (op_field op) data) as [[|]|]; try discriminate.
  destruct (py_pop "bot_token" (default_value dflt) data) as [[tok' params']|];
    [|discriminate].
  destruct (truthy tok'); simpl; [|discriminate].
  intros _.
  destruct (net _) as [reason|status text|status text];
    [| |destruct (raise_for_status status);
      [|destruct (json_loads text)]]; discriminate.
Qed.

(** A final response that [requests.post] returns (no exception) is an
    error for [send_telegram_request] only when its status is in 400..599:
    with any other status (e.g. a 300 without a Location header, which
    requests does not follow) a body that decodes is returned as a
    success. *)
Theorem forward_non_error_status (method : string) (tok params : json)
    (status : Z) (text : string) (v : json) :
  net {| ob_method := method; ob_token := tok; ob_params := params;
         ob_timeout := 10 |} = PostResponse status text ->
  ~ (400 <= status < 600)%Z ->
  json_loads text = Decoded v ->
  snd (send_telegram_request net json_loads method tok params) = FwdOk v.
Proof.
  intros Hn Hs Hj. simpl. rewrite Hn.
  assert (E : raise_for_status status = false).
  { unfold raise_for_status.
    destruct (400 <=? status)%Z eqn:E1; [|reflexivity].
    apply Z.leb_le in E1. simpl. apply Z.ltb_ge. lia. }
  rewrite E, Hj. reflexivity.
Qed.

(** The required-field checks test only that the keys are present:
    [chat_id] set to [null] and an empty required field still let the
    request through to the provider, with the default credential. *)
Theorem presence_only_check (op : operation) (tok : string)
    (rest : list (string * json)) :
  tok <> "" ->
  dict_get "bot_token" rest = None ->
  fst (send_handler net json_loads op (Some tok)
         (RJValue (JObj (("chat_id", JNull) :: (op_field op, JStr "") :: rest))))
  = [EvForward (op_method op) (JStr tok)
       (JObj (dict_remove "bot_token"
                (("chat_id", JNull) :: (op_field op, JStr "") :: rest)));
     EvPost {| ob_method := op_method op; ob_token := JStr tok;
               ob_params := JObj (dict_remove "bot_token"
                  (("chat_id", JNull) :: (op_field op, JStr "") :: rest));
               ob_timeout := 10 |}].
Proof.
  intros Ht Hg.
  assert (Hs : String.eqb tok "" = false) by (apply String.eqb_neq; exact Ht).
  destruct op; unfold send_handler; simpl; rewrite Hg; simpl; rewrite Hs;
    reflexivity.
Qed.

End Extras.

(** ** Concrete runs of the further properties *)

Lemma app_at_most_one_post_witness :
  exists tr r,
    app_dispatch (fun _ => PostResponse 200 "{}") sample_loads (Some "T")
      (UMEndpoint (RSend SendMessage)) (RJValue (JObj body_msg)) = Routed tr r /\
    (posts tr <= 1)%nat.
Proof.
  eexists; eexists; split; [reflexivity|].
  exact (app_at_most_one_post (fun _ => PostResponse 200 "{}") sample_loads
           (Some "T") (UMEndpoint (RSend SendMessage)) (RJValue (JObj body_msg))
           _ _ eq_refl).
Defined.

Lemma nondict_body_not_forwarded_witness :
  fst (send_message (fun _ => PostResponse 200 "{}") sample_loads (Some "T")
         (RJValue (JStr "hello"))) = [] /\
  (snd (send_message (fun _ => PostResponse 200 "{}") sample_loads (Some "T")
          (RJValue (JStr "hello")))
     = JsonResponse 400 (error_body "No data provided") \/
   snd (send_message (fun _ => PostResponse 200 "{}") sample_loads (Some "T")
          (RJValue (JStr "hello")))
     = JsonResponse 400 (error_body "Missing required field: chat_id") \/
   snd (send_message (fun _ => PostResponse 200 "{}") sample_loads (Some "T")
          (RJValue (JStr "hello")))
     = JsonResponse 400 (error_body ("Missing required field: " ++ op_field SendMessage)) \/
   snd (send_message (fun _ => PostResponse 200 "{}") sample_loads (Some "T")
          (RJValue (JStr "hello")))
     = internal_server_error).
Proof.
  exact (nondict_body_not_forwarded (fun _ => PostResponse 200 "{}") sample_loads
           SendMessage (Some "T") (JStr "hello")
           ltac:(intros kvs Hk; discriminate Hk)).
Defined.

Lemma container_body_pop_fails_witness :
  send_message (fun _ => PostResponse 200 "{}") sample_loads (Some "T")
    (RJValue (JArr [JStr "chat_id"; JStr "text"])) = ([], internal_server_error).
Proof.
  exact (container_body_pop_fails (fun _ => PostResponse 200 "{}") sample_loads
           SendMessage (Some "T") (JArr [JStr "chat_id"; JStr "text"])
           (or_intror (ex_intro _ _ eq_refl)) eq_refl eq_refl).
Defined.

Lemma scalar_body_type_error_witness :
  send_photo (fun _ => PostResponse 200 "{}") sample_loads (Some "T")
    (RJValue (JNum 7)) = ([], internal_server_error).
Proof.
  exact (scalar_body_type_error (fun _ => PostResponse 200 "{}") sample_loads
           SendPhoto (Some "T") (JNum 7) (or_introl (ex_intro _ 7%Z eq_refl))
           eq_refl).
Defined.

Lemma body_token_overrides_default_witness :
  send_message (fun _ => PostResponse 200 "{}") sample_loads None
    (RJValue (JObj (body_tok (JStr "U")))) =
  send_message (fun _ => PostResponse 200 "{}") sample_loads (Some "T")
    (RJValue (JObj (body_tok (JStr "U")))).
Proof.
  exact (body_token_overrides_default (fun _ => PostResponse 200 "{}") sample_loads
           SendMessage None (Some "T") (body_tok (JStr "U")) eq_refl).
Defined.

Lemma ok_response_from_provider_witness :
  exists c status text,
    In (EvPost c) (fst (send_message (fun _ => PostResponse 200 "true")
                          sample_loads (Some "T") (RJValue (JObj body_msg)))) /\
    PostResponse 200 "true" = PostResponse status text /\
    raise_for_status status = false /\
    sample_loads text = Decoded (JBool true).
Proof.
  exact (ok_response_from_provider (fun _ => PostResponse 200 "true") sample_loads
           SendMessage (Some "T") (RJValue (JObj body_msg)) (JBool true) eq_refl).
Defined.

Lemma client_error_no_call_witness :
  fst (send_message (fun _ => PostResponse 200 "true") sample_loads (Some "T")
         (RJValue (JObj [("chat_id", JNum 1)]))) = [].
Proof.
  exact (client_error_no_call (fun _ => PostResponse 200 "true") sample_loads
           SendMessage (Some "T") (RJValue (JObj [("chat_id", JNum 1)]))
           (error_body "Missing required field: text") eq_refl).
Defined.

Lemma forward_non_error_status_witness :
  snd (send_telegram_request (fun _ => PostResponse 300 "{}") sample_loads
         "sendMessage" (JStr "T") (JObj body_msg)) = FwdOk (JObj []).
Proof.
  exact (forward_non_error_status (fun _ => PostResponse 300 "{}") sample_loads
           "sendMessage" (JStr "T") (JObj body_msg) 300 "{}" (JObj [])
           eq_refl ltac:(lia) eq_refl).
Defined.

Lemma presence_only_check_witness :
  fst (send_photo (fun _ => PostResponse 200 "true") sample_loads (Some "T")
         (RJValue (JObj [("chat_id", JNull); ("photo", JStr "")])))
  = [EvForward "sendPhoto" (JStr "T") (JObj [("chat_id", JNull); ("photo", JStr "")]);
     EvPost {| ob_method := "sendPhoto"; ob_token := JStr "T";
               ob_params := JObj [("chat_id", JNull); ("photo", JStr "")];
               ob_timeout := 10 |}].
Proof.
  exact (presence_only_check (fun _ => PostResponse 200 "true") sample_loads
           SendPhoto "T" [] ltac:(discriminate) eq_refl).
Defined.
